(** * The executor package of the Nomad client (client/executor/exec.go)

    A shallow embedding of the capability registry ([Register], [Default]),
    of the spawn and reattachment entry points ([Command], [OpenPid]) and of
    the always-available [UniversalExecutor], followed by the properties the
    specification states about them.

    Go code runs against an operating system.  The host is kept abstract: a
    type [W] of host states and a class [Host] of the standard-library calls
    the package makes (os.FindProcess, os.Process.Kill, exec.LookPath,
    filepath.Base, exec.Cmd.Start and exec.Cmd.Wait).  A Go call is a function
    of the host state that either returns a value and a new host state or
    panics. *)

From Stdlib Require Import ZArith List String Ascii Bool DecimalString Lia.
Import ListNotations.
Open Scope string_scope.

(** ** Values of the Go standard library *)

(** An [error] value as errors.New and fmt.Errorf build it; a nil error is
    [None] of [option error]. *)
Record error : Type := errorString { Error : string }.

Module fmt.
  (** The verb %d at an int. *)
Definition d (n : Z) : string := NilZero.string_of_int (Z.to_int n).

  (** fmt.Errorf, the format already expanded by the caller. *)
Definition Errorf (msg : string) : option error := Some (errorString msg).
End fmt.

Module os.
  (** os.Process: the pid and the host's handle on the process. *)
Record Process : Type := newProcess { Pid : Z; handle : Z }.
End os.

Module exec.
  (** exec.Cmd, the fields this package reads or writes.  [Process] is a
      pointer in Go: [None] is nil. *)
Record Cmd : Type := mkCmd {
    Path : string;
    Args : list string;
    Env : list string;
    Dir : string;
    Process : option os.Process
  }.

Definition zero : Cmd :=
    {| Path := ""; Args := []; Env := []; Dir := ""; Process := None |}.

Definition set_Path (c : Cmd) (p : string) : Cmd :=
    {| Path := p; Args := Args c; Env := Env c; Dir := Dir c;
       Process := Process c |}.

Definition set_Args (c : Cmd) (a : list string) : Cmd :=
    {| Path := Path c; Args := a; Env := Env c; Dir := Dir c;
       Process := Process c |}.

Definition set_Process (c : Cmd) (p : option os.Process) : Cmd :=
    {| Path := Path c; Args := Args c; Env := Env c; Dir := Dir c;
       Process := p |}.
End exec.

Module structs.
(** Modelled from the spec: structs.Resources of package nomad/structs, which
    this package only imports.  The recognised options are a CPU limit, a
    memory limit and one further throttle, all advisory magnitudes. *)
Record Resources : Type := mkResources {
  cpu_limit : Z;
  memory_limit : Z;
  other_throttle : Z
}.

Definition zero : Resources :=
  {| cpu_limit := 0; memory_limit := 0; other_throttle := 0 |}.
End structs.

(** ** Calls: host state passing with panics *)

Inductive outcome (W A : Type) : Type :=
| Returns (a : A) (w : W)
| Panics (msg : string).
Arguments Returns {W A} a w.
Arguments Panics {W A} msg.

Definition M (W A : Type) : Type := W -> outcome W A.

Definition ret {W A : Type} (a : A) : M W A := fun w => Returns a w.

Definition bind {W A B : Type} (m : M W A) (k : A -> M W B) : M W B :=
  fun w => match m w with
           | Returns a w' => k a w'
           | Panics msg => Panics msg
           end.

(** A call that only inspects the host. *)
Definition inspect {W A : Type} (f : W -> A) : M W A := fun w => Returns (f w) w.

Notation "x <- m ;; k" := (bind m (fun x => k))
  (at level 61, m at next level, right associativity).
Notation "' pat <- m ;; k" := (bind m (fun x => match x with pat => k end))
  (at level 61, pat pattern, m at next level, right associativity).

(** What the Go runtime raises when a method reads through a nil pointer. *)
Definition nil_dereference : string :=
  "runtime error: invalid memory address or nil pointer dereference".

(** ** The host *)

Class Host (W : Type) : Type := {
  (** the platform half of os.FindProcess: the handle of the process with
      this pid, or the lookup's error *)
  os_findProcess : Z -> W -> Z + error;
  (** os.Process.Kill at a receiver that is not nil *)
  os_Process_Kill : os.Process -> M W (option error);
  (** exec.LookPath: the resolved path or the lookup's error *)
  exec_LookPath : string -> W -> string + error;
  (** filepath.Base *)
  filepath_Base : string -> string;
  (** exec.Cmd.Start and exec.Cmd.Wait *)
  exec_Cmd_Start : exec.Cmd -> M W (exec.Cmd * option error);
  exec_Cmd_Wait : exec.Cmd -> M W (exec.Cmd * option error)
}.

(** os.FindProcess: the platform lookup, then newProcess(pid, handle). *)
Definition os_FindProcess {W : Type} `{Host W} (pid : Z) (w : W)
  : os.Process + error :=
  match os_findProcess pid w with
  | inl h => inl (os.newProcess pid h)
  | inr err => inr err
  end.

(** os.Process.Kill through a pointer: the method reads its receiver, so a
    nil receiver panics. *)
Definition Process_Kill {W : Type} `{Host W} (p : option os.Process)
  : M W (option error) :=
  match p with
  | Some proc => os_Process_Kill proc
  | None => fun _ => Panics nil_dereference
  end.

(** ** The package *)

Section Executor.

Context {W : Type} `{HostW : Host W}.

(** type cmd struct: exec.Cmd embedded, the resources and the identity. *)
Record cmd : Type := mk_cmd {
  cmd_Cmd : exec.Cmd;
  cmd_Resources : structs.Resources;
  cmd_RunAs : string
}.

Definition cmd_set_Cmd (c : cmd) (x : exec.Cmd) : cmd :=
  {| cmd_Cmd := x; cmd_Resources := cmd_Resources c; cmd_RunAs := cmd_RunAs c |}.

(** The assignments cmd.Path = p, cmd.Args = a and e.Process = p, through the
    embedded exec.Cmd. *)
Definition assign_Path (c : cmd) (p : string) : cmd :=
  cmd_set_Cmd c (exec.set_Path (cmd_Cmd c) p).
Definition assign_Args (c : cmd) (a : list string) : cmd :=
  cmd_set_Cmd c (exec.set_Args (cmd_Cmd c) a).
Definition assign_Process (c : cmd) (p : option os.Process) : cmd :=
  cmd_set_Cmd c (exec.set_Process (cmd_Cmd c) p).

(** type Executor interface.  A method with a pointer receiver may update
    the receiver, which is returned next to the method's result.  [Command]
    returns a pointer to the struct the executor holds: [Command] reads it,
    [store] is a write through that pointer, and [Command_store] says that
    the pointer is to the executor's own struct. *)
Class ExecutorInterface (T : Type) : Type := {
  Available : T -> M W bool;
  Limit : T -> structs.Resources -> M W (T * option error);
  RunAs : T -> string -> M W (T * option error);
  Start : T -> M W (T * option error);
  Open : T -> Z -> M W (T * option error);
  Wait : T -> M W (T * option error);
  Pid : T -> M W (Z * option error);
  Shutdown : T -> M W (T * option error);
  ForceStop : T -> M W (T * option error);
  Command : T -> cmd;
  store : T -> cmd -> T;
  Command_store : forall (t : T) (c : cmd), Command (store t c) = c
}.

(** A value of interface type: the dynamic type, its method table and the
    value. *)
Record Executor : Type := iface {
  dynamic_type : Type;
  itab : ExecutorInterface dynamic_type;
  data : dynamic_type
}.
Arguments iface {dynamic_type itab} data.

(** A method call on an interface value, the receiver wrapped again. *)
Definition rewrap (x : Executor)
    (m : M W (dynamic_type x * option error)) : M W (Executor * option error) :=
  '(t, err) <- m ;; ret (@iface _ (itab x) t, err).

#[export] Instance Executor_dispatch : ExecutorInterface Executor := {
  Available x := @Available _ (itab x) (data x);
  Limit x r := rewrap x (@Limit _ (itab x) (data x) r);
  RunAs x u := rewrap x (@RunAs _ (itab x) (data x) u);
  Start x := rewrap x (@Start _ (itab x) (data x));
  Open x pid := rewrap x (@Open _ (itab x) (data x) pid);
  Wait x := rewrap x (@Wait _ (itab x) (data x));
  Pid x := @Pid _ (itab x) (data x);
  Shutdown x := rewrap x (@Shutdown _ (itab x) (data x));
  ForceStop x := rewrap x (@ForceStop _ (itab x) (data x));
  Command x := @Command _ (itab x) (data x);
  store x c := @iface _ (itab x) (@store _ (itab x) (data x) c);
  Command_store x c := @Command_store _ (itab x) (data x) c
}.

(** *** UniversalExecutor *)

Record UniversalExecutor : Type := mk_UniversalExecutor {
  UniversalExecutor_cmd : cmd
}.

(** &UniversalExecutor{}: every field at its zero value. *)
Definition zero_cmd : cmd :=
  {| cmd_Cmd := exec.zero; cmd_Resources := structs.zero; cmd_RunAs := "" |}.
Definition zero_UniversalExecutor : UniversalExecutor :=
  {| UniversalExecutor_cmd := zero_cmd |}.

(** e.Process, promoted through the two embeddings. *)
Definition UniversalExecutor_Process (e : UniversalExecutor) : option os.Process :=
  exec.Process (cmd_Cmd (UniversalExecutor_cmd e)).

Definition UniversalExecutor_Available (e : UniversalExecutor) : M W bool :=
  ret true.

Definition UniversalExecutor_Limit (e : UniversalExecutor)
    (resources : structs.Resources) : M W (UniversalExecutor * option error) :=
  ret (e, None).

Definition UniversalExecutor_RunAs (e : UniversalExecutor)
    (userid : string) : M W (UniversalExecutor * option error) :=
  ret (e, None).

Definition UniversalExecutor_Start (e : UniversalExecutor)
  : M W (UniversalExecutor * option error) :=
  '(c, err) <- exec_Cmd_Start (cmd_Cmd (UniversalExecutor_cmd e)) ;;
  ret (mk_UniversalExecutor (cmd_set_Cmd (UniversalExecutor_cmd e) c), err).

Definition UniversalExecutor_Open (e : UniversalExecutor) (pid : Z)
  : M W (UniversalExecutor * option error) :=
  r <- inspect (os_FindProcess pid) ;;
  match r with
  | inr err =>
      ret (e, fmt.Errorf ("Failed to reopen pid " ++ fmt.d pid ++ ": " ++ Error err))
  | inl process =>
      ret (mk_UniversalExecutor
             (assign_Process (UniversalExecutor_cmd e) (Some process)), None)
  end.

Definition UniversalExecutor_Wait (e : UniversalExecutor)
  : M W (UniversalExecutor * option error) :=
  '(c, err) <- exec_Cmd_Wait (cmd_Cmd (UniversalExecutor_cmd e)) ;;
  ret (mk_UniversalExecutor (cmd_set_Cmd (UniversalExecutor_cmd e) c), err).

Definition UniversalExecutor_Pid (e : UniversalExecutor)
  : M W (Z * option error) :=
  match UniversalExecutor_Process e with
  | Some process => ret (os.Pid process, None)
  | None => ret (0%Z, fmt.Errorf "Process has finished or was never started")
  end.

Definition UniversalExecutor_ForceStop (e : UniversalExecutor)
  : M W (UniversalExecutor * option error) :=
  err <- Process_Kill (UniversalExecutor_Process e) ;;
  ret (e, err).

Definition UniversalExecutor_Shutdown (e : UniversalExecutor)
  : M W (UniversalExecutor * option error) :=
  UniversalExecutor_ForceStop e.

Definition UniversalExecutor_Command (e : UniversalExecutor) : cmd :=
  UniversalExecutor_cmd e.

#[export] Instance UniversalExecutor_methods
  : ExecutorInterface UniversalExecutor := {
  Available := UniversalExecutor_Available;
  Limit := UniversalExecutor_Limit;
  RunAs := UniversalExecutor_RunAs;
  Start := UniversalExecutor_Start;
  Open := UniversalExecutor_Open;
  Wait := UniversalExecutor_Wait;
  Pid := UniversalExecutor_Pid;
  Shutdown := UniversalExecutor_Shutdown;
  ForceStop := UniversalExecutor_ForceStop;
  Command := UniversalExecutor_Command;
  store e c := mk_UniversalExecutor c;
  Command_store e c := eq_refl
}.

(** *** The registry and selection *)

(** type ExecutorFactory func() Executor *)
Definition ExecutorFactory : Type := M W Executor.

(** Register appends to the package variable [executors], here passed and
    returned; a nil slice and an empty one are both []. *)
Definition Register (executors : list ExecutorFactory)
    (executor : ExecutorFactory) : list ExecutorFactory :=
  executors ++ [executor].

(** The registry after a sequence of Register calls, from the nil slice. *)
Definition registered (factories : list ExecutorFactory) : list ExecutorFactory :=
  fold_left Register factories [].

(** The fallback instance &UniversalExecutor{} as an Executor. *)
Definition fallback : Executor := iface zero_UniversalExecutor.

Fixpoint Default (executors : list ExecutorFactory) : M W Executor :=
  match executors with
  | [] => ret fallback
  | factory :: rest =>
      executor <- factory ;;
      available <- Available executor ;;
      if available then ret executor else Default rest
  end.

(** One assignment through the pointer executor.Command() returned. *)
Definition through_Command (executor : Executor) (f : cmd -> cmd) : Executor :=
  store executor (f (Command executor)).

Definition executor_Command (executors : list ExecutorFactory)
    (name : string) (arg : list string) : M W Executor :=
  executor <- Default executors ;;
  let executor := through_Command executor (fun c => assign_Path c name) in
  let executor := through_Command executor (fun c => assign_Args c ([name] ++ arg)) in
  if String.eqb (filepath_Base name) name then
    r <- inspect (exec_LookPath name) ;;
    match r with
    | inr err => ret executor
    | inl lp => ret (through_Command executor (fun c => assign_Path c lp))
    end
  else ret executor.

Definition OpenPid (executors : list ExecutorFactory) (pid : Z)
  : M W (option Executor * option error) :=
  executor <- Default executors ;;
  '(executor, err) <- Open executor pid ;;
  match err with
  | Some e => ret (None, Some e)
  | None => ret (Some executor, None)
  end.

(** *** Runs of the selection loop and of an executor's callers *)

(** [rejected executors w w']: from host state [w] every factory of
    [executors], invoked in list order, returns an instance whose Available
    returns false, and the host is left in [w']. *)
Inductive rejected : list ExecutorFactory -> W -> W -> Prop :=
| rejected_nil (w : W) : rejected [] w w
| rejected_cons (factory : ExecutorFactory) (rest : list ExecutorFactory)
    (executor : Executor) (w w1 w2 w3 : W) :
    factory w = Returns executor w1 ->
    Available executor w1 = Returns false w2 ->
    rejected rest w2 w3 ->
    rejected (factory :: rest) w w3.

(** The two errors the UniversalExecutor builds itself, in Pid and in Open. *)
Definition not_started : option error :=
  fmt.Errorf "Process has finished or was never started".

Definition reopen_failure (pid : Z) (err : error) : option error :=
  fmt.Errorf ("Failed to reopen pid " ++ fmt.d pid ++ ": " ++ Error err).

(** Calls a caller may make on a UniversalExecutor before it is started. *)
Inductive call : Type :=
| call_Limit (resources : structs.Resources)
| call_RunAs (userid : string)
| call_Open (pid : Z).

Definition perform (e : UniversalExecutor) (c : call)
  : M W (UniversalExecutor * option error) :=
  match c with
  | call_Limit resources => UniversalExecutor_Limit e resources
  | call_RunAs userid => UniversalExecutor_RunAs e userid
  | call_Open pid => UniversalExecutor_Open e pid
  end.

Fixpoint perform_all (e : UniversalExecutor) (cs : list call)
  : M W UniversalExecutor :=
  match cs with
  | [] => ret e
  | c :: cs' => '(e', _) <- perform e c ;; perform_all e' cs'
  end.

(** No Open among the calls finds its process on host [w]. *)
Definition no_Open_succeeds (w : W) (cs : list call) : bool :=
  forallb (fun c => match c with
                    | call_Open pid =>
                        match os_FindProcess pid w with
                        | inr _ => true
                        | inl _ => false
                        end
                    | _ => true
                    end) cs.

End Executor.

Arguments iface {W dynamic_type itab} data.

(** ** Hosts with tables *)

Module filepath.
(** path/filepath on Unix: the separator is '/', the volume name empty. *)
Definition Separator : ascii := "/"%char.

Definition IsPathSeparator (c : ascii) : bool := Ascii.eqb c Separator.

(** The loop that strips trailing separators, on the reversed path. *)
Fixpoint strip_trailing (r : list ascii) : list ascii :=
  match r with
  | c :: r' => if IsPathSeparator c then strip_trailing r' else r
  | [] => []
  end.

(** The loop that walks back to the last separator, on the reversed path:
    what lies after that separator, reversed. *)
Fixpoint last_element (r : list ascii) : list ascii :=
  match r with
  | c :: r' => if IsPathSeparator c then [] else c :: last_element r'
  | [] => []
  end.

Definition Base (path : string) : string :=
  if String.eqb path "" then "."
  else
    let r := strip_trailing (rev (list_ascii_of_string path)) in
    let path := string_of_list_ascii (rev (last_element r)) in
    if String.eqb path "" then String Separator "" else path.

(** Does the path contain a separator? *)
Definition has_separator (path : string) : bool :=
  existsb IsPathSeparator (list_ascii_of_string path).
End filepath.

Module table_host.
(** The host as three tables: the pids of the live processes, the
    executables on the search path with their resolved paths, and the
    capabilities of the platform; and a journal of the capability probes
    made so far, the latest first.

    The process lookup of this host, [findProcess], fails at a pid that is
    not live, as os.FindProcess does where it has to open the process
    (Windows).  On Unix os.FindProcess never fails: that lookup is
    [unix_host.findProcess] below.  Paths are Unix paths on both hosts. *)
Record world : Type := mk_world {
  procs : list Z;
  search_path : list (string * string);
  capabilities : list string;
  journal : list string
}.

Definition set_procs (w : world) (ps : list Z) : world :=
  {| procs := ps; search_path := search_path w;
     capabilities := capabilities w; journal := journal w |}.

Definition set_journal (w : world) (j : list string) : world :=
  {| procs := procs w; search_path := search_path w;
     capabilities := capabilities w; journal := j |}.

Fixpoint lookup (name : string) (table : list (string * string)) : option string :=
  match table with
  | (n, p) :: rest => if String.eqb n name then Some p else lookup name rest
  | [] => None
  end.

Definition mem_Z (z : Z) (l : list Z) : bool := existsb (Z.eqb z) l.
Definition mem_string (s : string) (l : list string) : bool := existsb (String.eqb s) l.

Definition findProcess (pid : Z) (w : world) : Z + error :=
  if mem_Z pid (procs w) then inl 0%Z
  else inr (errorString "no such process").

Definition Kill (p : os.Process) : M world (option error) :=
  fun w =>
    if mem_Z (os.Pid p) (procs w)
    then Returns None
           (set_procs w (filter (fun q => negb (Z.eqb q (os.Pid p))) (procs w)))
    else Returns (Some (errorString "os: process already finished")) w.

Definition LookPath (file : string) (w : world) : string + error :=
  match lookup file (search_path w) with
  | Some p => inl p
  | None => inr (errorString "executable file not found in $PATH")
  end.

Definition fresh_pid (w : world) : Z := 1 + fold_right Z.max 0%Z (procs w).

Definition Start (c : exec.Cmd) : M world (exec.Cmd * option error) :=
  fun w =>
    match exec.Process c with
    | Some _ => Returns (c, Some (errorString "exec: already started")) w
    | None =>
        if mem_string (exec.Path c) (map snd (search_path w))
        then let pid := fresh_pid w in
             Returns (exec.set_Process c (Some (os.newProcess pid 0)), None)
                     (set_procs w (pid :: procs w))
        else Returns (c, Some (errorString "no such file or directory")) w
    end.

Definition Wait (c : exec.Cmd) : M world (exec.Cmd * option error) :=
  fun w =>
    match exec.Process c with
    | None => Returns (c, Some (errorString "exec: not started")) w
    | Some p =>
        Returns (c, None)
                (set_procs w (filter (fun q => negb (Z.eqb q (os.Pid p))) (procs w)))
    end.

#[export] Instance host : Host world := {
  os_findProcess := findProcess;
  os_Process_Kill := Kill;
  exec_LookPath := LookPath;
  filepath_Base := filepath.Base;
  exec_Cmd_Start := Start;
  exec_Cmd_Wait := Wait
}.

(** A platform executor that embeds cmd as UniversalExecutor does and is
    available when the platform has the capability it needs; its probe is
    journalled. *)
Record CapabilityExecutor : Type := mk_CapabilityExecutor {
  needs : string;
  CapabilityExecutor_cmd : cmd
}.

Definition as_Universal (e : CapabilityExecutor) : UniversalExecutor :=
  mk_UniversalExecutor (CapabilityExecutor_cmd e).

Definition lift (e : CapabilityExecutor)
    (m : M world (UniversalExecutor * option error))
  : M world (CapabilityExecutor * option error) :=
  '(u, err) <- m ;;
  ret (mk_CapabilityExecutor (needs e) (UniversalExecutor_cmd u), err).

Definition probe (e : CapabilityExecutor) : M world bool :=
  fun w => Returns (mem_string (needs e) (capabilities w))
                   (set_journal w (needs e :: journal w)).

#[export] Instance CapabilityExecutor_methods
  : ExecutorInterface (W := world) CapabilityExecutor := {
  Available := probe;
  Limit e r := lift e (UniversalExecutor_Limit (as_Universal e) r);
  RunAs e u := lift e (UniversalExecutor_RunAs (as_Universal e) u);
  Start e := lift e (UniversalExecutor_Start (as_Universal e));
  Open e pid := lift e (UniversalExecutor_Open (as_Universal e) pid);
  Wait e := lift e (UniversalExecutor_Wait (as_Universal e));
  Pid e := UniversalExecutor_Pid (as_Universal e);
  Shutdown e := lift e (UniversalExecutor_Shutdown (as_Universal e));
  ForceStop e := lift e (UniversalExecutor_ForceStop (as_Universal e));
  Command := CapabilityExecutor_cmd;
  store e c := mk_CapabilityExecutor (needs e) c;
  Command_store e c := eq_refl
}.

Definition new (capability : string) : ExecutorFactory (W := world) :=
  ret (iface (mk_CapabilityExecutor capability zero_cmd)).

Definition w0 : world :=
  {| procs := [4242%Z; 17%Z];
     search_path := [("ls", "/bin/ls"); ("java", "/usr/bin/java")];
     capabilities := ["chroot"; "rlimit"];
     journal := [] |}.
End table_host.

Module unix_host.
(** The same tables under the process lookup of Unix: os.FindProcess does
    not look at the process table and returns a Process for every pid, live
    or not, with handle 0. *)
Definition findProcess (pid : Z) (w : table_host.world) : Z + error := inl 0%Z.

Definition host : Host table_host.world := {|
  os_findProcess := findProcess;
  os_Process_Kill := table_host.Kill;
  exec_LookPath := table_host.LookPath;
  filepath_Base := filepath.Base;
  exec_Cmd_Start := table_host.Start;
  exec_Cmd_Wait := table_host.Wait
|}.
End unix_host.

(** ** Properties *)

Section Properties.

Context {W : Type} `{HostW : Host W}.

Implicit Types (w : W) (e : UniversalExecutor) (executors : list (@ExecutorFactory W)).

(** Run one call whose outcome is known. *)
Ltac run H := unfold bind at 1; rewrite H; cbv beta iota.

Lemma Register_from (acc factories : list (@ExecutorFactory W)) :
  fold_left Register factories acc = (acc ++ factories)%list.
Proof.
  revert acc; induction factories as [|f fs IH]; intros acc; simpl.
  - now rewrite app_nil_r.
  - rewrite IH. unfold Register. now rewrite <- app_assoc.
Qed.

(** The registry holds the factories in the order of their registration. *)
Lemma registered_order (factories : list (@ExecutorFactory W)) :
  registered factories = factories.
Proof. unfold registered. now rewrite Register_from. Qed.

(** The loop passes over a rejected prefix. *)
Lemma Default_skips (earlier later : list (@ExecutorFactory W)) w w1 :
  rejected earlier w w1 ->
  Default (earlier ++ later) w = Default later w1.
Proof.
  induction 1 as [w | factory rest executor w wa wb wc Hf Ha _ IH];
    cbn [app Default].
  - reflexivity.
  - run Hf. run Ha. exact IH.
Qed.

(** C1: with the factories registered in the order [earlier], [factory],
    [later], when every factory of [earlier], invoked in that order, gives an
    instance that is not available and [factory], invoked next, gives an
    available instance, Default returns that instance, and the host is as
    the probe of [factory] left it: no factory of [later] is invoked. *)
Theorem Default_first_available
    (earlier later : list (@ExecutorFactory W)) (factory : @ExecutorFactory W)
    (executor : Executor) w w1 w2 w3 :
  rejected earlier w w1 ->
  factory w1 = Returns executor w2 ->
  Available executor w2 = Returns true w3 ->
  Default (registered (earlier ++ factory :: later)) w = Returns executor w3.
Proof.
  intros Hrej Hf Ha.
  rewrite registered_order, (Default_skips _ _ _ _ Hrej).
  cbn [Default]. run Hf. run Ha. reflexivity.
Qed.

(** C2: when the registry is empty or every registered factory gives an
    instance that is not available, Default returns the fallback
    UniversalExecutor, whose own Available returns true. *)
Theorem Default_fallback executors w w' :
  rejected executors w w' ->
  Default executors w = Returns fallback w' /\
  dynamic_type fallback = UniversalExecutor /\
  Available fallback w' = Returns true w'.
Proof.
  intros Hrej. split; [|split; reflexivity].
  rewrite <- (app_nil_r executors), (Default_skips _ _ _ _ Hrej).
  reflexivity.
Qed.

(** X15: selection returns whenever the factories and the probes it calls
    do: the loop itself adds no failure. *)
Lemma Default_returns executors :
  Forall (fun factory : @ExecutorFactory W =>
            forall w, exists executor w1,
              factory w = Returns executor w1 /\
              exists available w2,
                Available executor w1 = Returns available w2) executors ->
  forall w, exists executor w', Default executors w = Returns executor w'.
Proof.
  induction 1 as [|factory rest Hf _ IH]; intros w; cbn [Default].
  - now exists fallback, w.
  - destruct (Hf w) as (executor & w1 & Hx & available & w2 & Ha).
    run Hx. run Ha. destruct available.
    + now exists executor, w2.
    + apply IH.
Qed.

(** *** UniversalExecutor *)

Lemma FindProcess_found (pid h : Z) w :
  os_findProcess pid w = inl h ->
  os_FindProcess pid w = inl (os.newProcess pid h).
Proof. unfold os_FindProcess. now intros ->. Qed.

Lemma FindProcess_failed (pid : Z) (err : error) w :
  os_findProcess pid w = inr err <-> os_FindProcess pid w = inr err.
Proof.
  unfold os_FindProcess. destruct (os_findProcess pid w); split; congruence.
Qed.

Lemma Open_failed e (pid : Z) (err : error) w :
  os_FindProcess pid w = inr err ->
  UniversalExecutor_Open e pid w = Returns (e, reopen_failure pid err) w.
Proof.
  intros H. unfold UniversalExecutor_Open, bind, inspect. now rewrite H.
Qed.

Lemma Pid_nil_Process e w :
  UniversalExecutor_Process e = None ->
  UniversalExecutor_Pid e w = Returns (0%Z, not_started) w.
Proof. intros H. unfold UniversalExecutor_Pid. now rewrite H. Qed.

(** Limit, RunAs and an Open whose lookup fails leave the executor and the
    host as they were. *)
Lemma perform_all_unattached (cs : list call) e w :
  no_Open_succeeds w cs = true ->
  perform_all e cs w = Returns e w.
Proof.
  induction cs as [|c cs IH]; cbn [perform_all no_Open_succeeds forallb].
  - reflexivity.
  - intros H. apply andb_true_iff in H. destruct H as [Hc Hcs].
    destruct c as [resources | userid | pid]; cbn [perform].
    + unfold bind, UniversalExecutor_Limit, ret. now apply IH.
    + unfold bind, UniversalExecutor_RunAs, ret. now apply IH.
    + destruct (os_FindProcess pid w) as [p | err] eqn:Hpid; [discriminate|].
      unfold bind at 1. rewrite (Open_failed _ _ _ _ Hpid). now apply IH.
Qed.

(** C3: on a new UniversalExecutor, after any calls of Limit, RunAs and Open
    of which no Open found its process, Pid returns 0 and the error
    "Process has finished or was never started". *)
Theorem Pid_not_started (cs : list call) w :
  no_Open_succeeds w cs = true ->
  exists e,
    perform_all zero_UniversalExecutor cs w = Returns e w /\
    UniversalExecutor_Pid e w = Returns (0%Z, not_started) w.
Proof.
  intros H. exists zero_UniversalExecutor. split.
  - now apply perform_all_unattached.
  - now apply Pid_nil_Process.
Qed.


(** C5: Shutdown and ForceStop of the UniversalExecutor are the same call:
    on every executor and host state they return the same error and leave
    the same executor and host, or both panic; directly and through the
    Executor interface. *)
Theorem Shutdown_is_ForceStop e w :
  UniversalExecutor_Shutdown e w = UniversalExecutor_ForceStop e w /\
  Shutdown (iface e) w = ForceStop (iface e) w.
Proof. split; reflexivity. Qed.

(** C6: ForceStop and Shutdown on a new UniversalExecutor, whose Process is
    nil, panic with a nil pointer dereference, where Pid on the same
    executor returns an error. *)
Theorem ForceStop_not_started_panics w :
  UniversalExecutor_ForceStop zero_UniversalExecutor w = Panics nil_dereference /\
  UniversalExecutor_Shutdown zero_UniversalExecutor w = Panics nil_dereference /\
  UniversalExecutor_Pid zero_UniversalExecutor w = Returns (0%Z, not_started) w.
Proof. repeat split. Qed.

(** C7: Limit and RunAs of the UniversalExecutor return a nil error at every
    input and leave the executor (path, arguments, process, resources and
    identity) and the host unchanged. *)
Theorem Limit_RunAs_noop e (resources : structs.Resources) (userid : string) w :
  UniversalExecutor_Limit e resources w = Returns (e, None) w /\
  UniversalExecutor_RunAs e userid w = Returns (e, None) w.
Proof. split; reflexivity. Qed.

(** C8: when the host's process lookup finds a pid, Open at that pid
    returns a nil error and Pid on the executor it leaves returns that pid
    with a nil error. *)
Theorem Open_Pid_roundtrip e (pid h : Z) w :
  os_findProcess pid w = inl h ->
  exists e',
    UniversalExecutor_Open e pid w = Returns (e', None) w /\
    UniversalExecutor_Pid e' w = Returns (pid, None) w.
Proof.
  intros H. apply FindProcess_found in H.
  eexists. split.
  - unfold UniversalExecutor_Open, bind, inspect. rewrite H. reflexivity.
  - reflexivity.
Qed.

(** *** Command *)

Lemma Command_through (x : @Executor W) (f : cmd -> cmd) :
  Command (through_Command x f) = f (Command x).
Proof. unfold through_Command. apply Command_store. Qed.

(** The executor after the first two assignments of Command. *)
Lemma Command_unresolved (x : @Executor W) (name : string) (arg : list string) :
  let executor :=
    through_Command (through_Command x (fun c => assign_Path c name))
                    (fun c => assign_Args c ([name] ++ arg)) in
  exec.Path (cmd_Cmd (Command executor)) = name /\
  exec.Args (cmd_Cmd (Command executor)) = name :: arg.
Proof. cbv zeta. rewrite !Command_through. split; reflexivity. Qed.

(** C9: whenever selection returns, Command(name, arg...) returns an
    executor whose handle has Args = name followed by arg; when
    filepath.Base(name) is name and exec.LookPath resolves name, Path is the
    resolved path; when the lookup fails, or filepath.Base(name) is not
    name, Path is name. *)
Theorem Command_Path_Args executors (name : string) (arg : list string)
    (selected : Executor) w w1 :
  Default executors w = Returns selected w1 ->
  exists executor,
    executor_Command executors name arg w = Returns executor w1 /\
    exec.Args (cmd_Cmd (Command executor)) = name :: arg /\
    (filepath_Base name = name ->
       forall lp, exec_LookPath name w1 = inl lp ->
                  exec.Path (cmd_Cmd (Command executor)) = lp) /\
    (filepath_Base name = name ->
       forall err, exec_LookPath name w1 = inr err ->
                   exec.Path (cmd_Cmd (Command executor)) = name) /\
    (filepath_Base name <> name ->
       exec.Path (cmd_Cmd (Command executor)) = name).
Proof.
  intros Hd. unfold executor_Command. run Hd. cbv zeta.
  destruct (Command_unresolved selected name arg) as [HPath HArgs].
  cbv zeta in HPath, HArgs.
  destruct (String.eqb (filepath_Base name) name) eqn:HBase.
  - apply String.eqb_eq in HBase.
    unfold bind, inspect.
    destruct (exec_LookPath name w1) as [lp | err] eqn:Hlp.
    + eexists. split; [reflexivity|].
      rewrite !Command_through. split; [|split; [|split]].
      * reflexivity.
      * intros _ lp' [= <-]. reflexivity.
      * intros _ err [=].
      * intros Hne. now elim Hne.
    + eexists. split; [reflexivity|]. split; [|split; [|split]].
      * exact HArgs.
      * intros _ lp [=].
      * intros _ _ _. exact HPath.
      * intros _. exact HPath.
  - apply String.eqb_neq in HBase.
    eexists. split; [reflexivity|]. split; [|split; [|split]].
    + exact HArgs.
    + intros Heq. now elim HBase.
    + intros Heq. now elim HBase.
    + intros _. exact HPath.
Qed.

(** C10: when filepath.Base(name) is name and exec.LookPath fails at name,
    Command returns, without a panic and with no trace of the lookup's
    error, the selected executor with only Path and Args assigned, Path
    being the unresolved name. *)
Theorem Command_discards_lookup_error executors (name : string)
    (arg : list string) (selected : Executor) (err : error) w w1 :
  Default executors w = Returns selected w1 ->
  filepath_Base name = name ->
  exec_LookPath name w1 = inr err ->
  let executor :=
    through_Command (through_Command selected (fun c => assign_Path c name))
                    (fun c => assign_Args c ([name] ++ arg)) in
  executor_Command executors name arg w = Returns executor w1 /\
  exec.Path (cmd_Cmd (Command executor)) = name.
Proof.
  intros Hd HBase Hlp. cbv zeta. split.
  - unfold executor_Command. run Hd. cbv zeta.
    apply String.eqb_eq in HBase. rewrite HBase.
    unfold bind, inspect. now rewrite Hlp.
  - apply Command_unresolved.
Qed.

End Properties.

(** ** Further properties of the package *)

Section Selection.

Context {W : Type} `{HostW : Host W}.

Implicit Types (w : W) (executors : list (@ExecutorFactory W)).

Ltac run H := unfold bind at 1; rewrite H; cbv beta iota.

Lemma Default_rejected executors w w' :
  rejected executors w w' -> Default executors w = Returns fallback w'.
Proof.
  intros Hrej.
  rewrite <- (app_nil_r executors), (Default_skips _ _ _ _ Hrej).
  reflexivity.
Qed.

(** X1: whatever Default returns, it is either the fallback, every
    registered factory having given an unavailable instance, or the instance
    of a registered factory whose probe returned true and before which every
    factory gave an unavailable instance.  Default never returns an instance
    whose probe returned false. *)
Theorem Default_selected_available executors w (executor : Executor) w' :
  Default executors w = Returns executor w' ->
  (executor = fallback /\ rejected executors w w') \/
  (exists earlier factory later w1 w2,
      executors = (earlier ++ factory :: later)%list /\
      rejected earlier w w1 /\
      factory w1 = Returns executor w2 /\
      Available executor w2 = Returns true w').
Proof.
  revert w. induction executors as [|factory rest IH]; intros w H;
    cbn [Default] in H.
  - injection H as <- <-. left. split; [reflexivity | constructor].
  - unfold bind at 1 in H.
    destruct (factory w) as [x wa|] eqn:Hf; [|discriminate].
    cbv beta iota in H. unfold bind at 1 in H.
    destruct (Available x wa) as [available wb|] eqn:Ha; [|discriminate].
    cbv beta iota in H. destruct available.
    + injection H as <- <-. right.
      exists [], factory, rest, w, wa. repeat split; try assumption.
      constructor.
    + destruct (IH _ H) as [[-> Hrej] | (earlier & f & later & w1 & w2 & -> & Hrej & Hx & Hav)].
      * left. split; [reflexivity|]. econstructor; eassumption.
      * right. exists (factory :: earlier), f, later, w1, w2.
        repeat split; try assumption. econstructor; eassumption.
Qed.

(** X2: registering one more factory does not change what Default selects
    when a factory registered earlier gives an available instance. *)
Theorem Register_keeps_selection
    (earlier later : list (@ExecutorFactory W))
    (factory newcomer : @ExecutorFactory W) (executor : Executor) w w1 w2 w3 :
  rejected earlier w w1 ->
  factory w1 = Returns executor w2 ->
  Available executor w2 = Returns true w3 ->
  Default (Register (earlier ++ factory :: later) newcomer) w
  = Returns executor w3.
Proof.
  intros Hrej Hf Ha. unfold Register.
  rewrite <- app_assoc, (Default_skips _ _ _ _ Hrej).
  cbn [app Default]. run Hf. run Ha. reflexivity.
Qed.

(** X3: a newly registered factory is invoked only after every factory
    registered before it has given an unavailable instance, and then it alone
    decides between its instance and the fallback. *)
Theorem Register_probed_last executors (newcomer : @ExecutorFactory W) w w' :
  rejected executors w w' ->
  Default (Register executors newcomer) w
  = (executor <- newcomer ;;
     available <- Available executor ;;
     if available then ret executor else ret fallback) w'.
Proof.
  intros Hrej. unfold Register. rewrite (Default_skips _ _ _ _ Hrej).
  reflexivity.
Qed.

(** X4: OpenPid returns an executor exactly when it returns no error: the
    result is (executor, nil) or (nil, error), never both or neither. *)
Theorem OpenPid_result_exclusive executors (pid : Z) w
    (result : option Executor) (err : option error) w' :
  OpenPid executors pid w = Returns (result, err) w' ->
  (result = None /\ err <> None) \/ (result <> None /\ err = None).
Proof.
  unfold OpenPid. unfold bind at 1.
  destruct (Default executors w) as [x w1|]; [|discriminate].
  unfold bind at 1.
  destruct (Open x pid w1) as [[x' [e|]] w2|]; [| |discriminate];
    unfold ret; intros [= <- <- <-].
  - left. split; [reflexivity | discriminate].
  - right. split; [discriminate | reflexivity].
Qed.

Lemma Open_fallback (e : UniversalExecutor) (pid : Z) w :
  Open (iface e) pid w
  = match UniversalExecutor_Open e pid w with
    | Returns (e', err) w' => Returns (iface e', err) w'
    | Panics msg => Panics msg
    end.
Proof.
  cbv [Open Executor_dispatch rewrap bind itab data UniversalExecutor_methods].
  destruct (UniversalExecutor_Open e pid w) as [[e' err] w'|]; reflexivity.
Qed.

(** X5: when no registered executor is available and the host's lookup finds
    the pid, OpenPid returns a UniversalExecutor and a nil error, and Pid on
    that executor returns the pid. *)
Theorem OpenPid_fallback_roundtrip executors (pid h : Z) w w' :
  rejected executors w w' ->
  os_findProcess pid w' = inl h ->
  exists executor,
    OpenPid executors pid w = Returns (Some executor, None) w' /\
    dynamic_type executor = UniversalExecutor /\
    Pid executor w' = Returns (pid, None) w'.
Proof.
  intros Hrej Hpid. apply FindProcess_found in Hpid.
  unfold OpenPid. run (Default_rejected _ _ _ Hrej).
  unfold bind at 1. unfold fallback. rewrite Open_fallback.
  unfold UniversalExecutor_Open, bind, inspect. rewrite Hpid. cbn.
  eexists. split; [reflexivity|]. split; reflexivity.
Qed.

(** X6: when no registered executor is available and the host's lookup fails
    at the pid, OpenPid returns no executor and the error of Open, and the
    host is as selection left it. *)
Theorem OpenPid_fallback_lookup_error executors (pid : Z) (err : error) w w' :
  rejected executors w w' ->
  os_findProcess pid w' = inr err ->
  OpenPid executors pid w = Returns (None, reopen_failure pid err) w'.
Proof.
  intros Hrej Hpid. apply FindProcess_failed in Hpid.
  unfold OpenPid. run (Default_rejected _ _ _ Hrej).
  unfold bind at 1. unfold fallback. rewrite Open_fallback.
  rewrite (Open_failed _ _ _ _ Hpid). reflexivity.
Qed.

(** X7: Command assigns only Path and Args: the selected executor keeps its
    dynamic type, and its handle keeps Env, Dir, Process, Resources and
    RunAs; the host is as selection left it. *)
Theorem Command_frame executors (name : string) (arg : list string)
    (selected : Executor) w w1 :
  Default executors w = Returns selected w1 ->
  exists executor,
    executor_Command executors name arg w = Returns executor w1 /\
    dynamic_type executor = dynamic_type selected /\
    exec.Env (cmd_Cmd (Command executor)) = exec.Env (cmd_Cmd (Command selected)) /\
    exec.Dir (cmd_Cmd (Command executor)) = exec.Dir (cmd_Cmd (Command selected)) /\
    exec.Process (cmd_Cmd (Command executor))
      = exec.Process (cmd_Cmd (Command selected)) /\
    cmd_Resources (Command executor) = cmd_Resources (Command selected) /\
    cmd_RunAs (Command executor) = cmd_RunAs (Command selected).
Proof.
  intros Hd. unfold executor_Command. run Hd. cbv zeta.
  destruct (String.eqb (filepath_Base name) name).
  - unfold bind, inspect.
    destruct (exec_LookPath name w1) as [lp | err];
      (eexists; split; [reflexivity|]; split; [reflexivity|];
       rewrite !Command_through; repeat split).
  - eexists. split; [reflexivity|]. split; [reflexivity|].
    rewrite !Command_through. repeat split.
Qed.

(** X8: Command does not start anything: when no registered executor is
    available, the executor it returns is a UniversalExecutor on which Pid
    returns the not-started error. *)
Theorem Command_not_started executors (name : string) (arg : list string) w w' :
  rejected executors w w' ->
  exists executor,
    executor_Command executors name arg w = Returns executor w' /\
    dynamic_type executor = UniversalExecutor /\
    Pid executor w' = Returns (0%Z, not_started) w'.
Proof.
  intros Hrej. unfold executor_Command. run (Default_rejected _ _ _ Hrej).
  cbv zeta.
  destruct (String.eqb (filepath_Base name) name).
  - unfold bind, inspect.
    destruct (exec_LookPath name w') as [lp | err];
      (eexists; split; [reflexivity|]; split; reflexivity).
  - eexists. split; [reflexivity|]. split; reflexivity.
Qed.

(** X16: Default has no recover: when the factories before one have given
    unavailable instances and that factory panics, or the probe of its
    instance does, Default panics with the same message; it does not go on
    to a later factory or to the fallback. *)
Theorem Default_propagates_panic
    (earlier later : list (@ExecutorFactory W)) (factory : @ExecutorFactory W)
    (msg : string) w w1 :
  rejected earlier w w1 ->
  factory w1 = Panics msg \/
  (exists executor w2,
      factory w1 = Returns executor w2 /\ Available executor w2 = Panics msg) ->
  Default (earlier ++ factory :: later) w = Panics msg.
Proof.
  intros Hrej H. rewrite (Default_skips _ _ _ _ Hrej). cbn [Default].
  destruct H as [Hf | (executor & w2 & Hf & Ha)].
  - run Hf. reflexivity.
  - run Hf. run Ha. reflexivity.
Qed.

End Selection.

Section Lifecycle.

Context {W : Type} `{HostW : Host W}.

Implicit Types (w : W) (e : UniversalExecutor).

(** The executor [e] with other resources and another identity recorded in
    its struct. *)
Definition constrained e (resources : structs.Resources) (userid : string)
  : UniversalExecutor :=
  mk_UniversalExecutor
    (mk_cmd (cmd_Cmd (UniversalExecutor_cmd e)) resources userid).

Lemma Open_found e (pid h : Z) w :
  os_findProcess pid w = inl h ->
  UniversalExecutor_Open e pid w
  = Returns (mk_UniversalExecutor
               (assign_Process (UniversalExecutor_cmd e)
                               (Some (os.newProcess pid h))), None) w.
Proof.
  intros H. apply FindProcess_found in H.
  unfold UniversalExecutor_Open, bind, inspect. now rewrite H.
Qed.

(** X9: Open always returns, leaves the host as it was and changes nothing
    of the executor but Process: Path, Args, Env, Dir, Resources and RunAs
    are kept; with an error the executor is unchanged, and with a nil error
    Process is a process with the pid asked for. *)
Theorem Open_frame e (pid : Z) w :
  exists e' err,
    UniversalExecutor_Open e pid w = Returns (e', err) w /\
    exec.Path (cmd_Cmd (UniversalExecutor_cmd e'))
      = exec.Path (cmd_Cmd (UniversalExecutor_cmd e)) /\
    exec.Args (cmd_Cmd (UniversalExecutor_cmd e'))
      = exec.Args (cmd_Cmd (UniversalExecutor_cmd e)) /\
    exec.Env (cmd_Cmd (UniversalExecutor_cmd e'))
      = exec.Env (cmd_Cmd (UniversalExecutor_cmd e)) /\
    exec.Dir (cmd_Cmd (UniversalExecutor_cmd e'))
      = exec.Dir (cmd_Cmd (UniversalExecutor_cmd e)) /\
    cmd_Resources (UniversalExecutor_cmd e') = cmd_Resources (UniversalExecutor_cmd e) /\
    cmd_RunAs (UniversalExecutor_cmd e') = cmd_RunAs (UniversalExecutor_cmd e) /\
    (err <> None -> e' = e) /\
    (err = None ->
       exists process,
         UniversalExecutor_Process e' = Some process /\ os.Pid process = pid).
Proof.
  destruct (os_findProcess pid w) as [h | failure] eqn:Hpid.
  - do 2 eexists. split; [exact (Open_found e pid h w Hpid)|].
    do 6 (split; [reflexivity|]). split.
    + intros Hne. now elim Hne.
    + intros _. eexists. split; reflexivity.
  - apply FindProcess_failed in Hpid.
    do 2 eexists. split; [exact (Open_failed e pid failure w Hpid)|].
    do 6 (split; [reflexivity|]). split.
    + reflexivity.
    + discriminate.
Qed.

(** X10: Open does not refuse an executor that is already attached: of two
    successful Open calls the later one decides what Pid returns. *)
Theorem Open_last_wins e (pid1 h1 pid2 h2 : Z) w :
  os_findProcess pid1 w = inl h1 ->
  os_findProcess pid2 w = inl h2 ->
  exists e1 e2,
    UniversalExecutor_Open e pid1 w = Returns (e1, None) w /\
    UniversalExecutor_Open e1 pid2 w = Returns (e2, None) w /\
    UniversalExecutor_Pid e2 w = Returns (pid2, None) w.
Proof.
  intros H1 H2. do 2 eexists.
  split; [exact (Open_found e pid1 h1 w H1)|].
  split; [exact (Open_found _ pid2 h2 w H2)|].
  reflexivity.
Qed.

(** X11: an Open that fails after an Open that succeeded returns its error
    and leaves the executor attached to the first process: Pid still returns
    the first pid. *)
Theorem Open_failure_keeps_Process e (pid1 h1 pid2 : Z) (err : error) w :
  os_findProcess pid1 w = inl h1 ->
  os_findProcess pid2 w = inr err ->
  exists e1,
    UniversalExecutor_Open e pid1 w = Returns (e1, None) w /\
    UniversalExecutor_Open e1 pid2 w = Returns (e1, reopen_failure pid2 err) w /\
    UniversalExecutor_Pid e1 w = Returns (pid1, None) w.
Proof.
  intros H1 H2. apply FindProcess_failed in H2. eexists.
  split; [exact (Open_found e pid1 h1 w H1)|].
  split; [exact (Open_failed _ pid2 err w H2)|].
  reflexivity.
Qed.

(** X12: after a successful Open, ForceStop and Shutdown do not panic on the
    nil check they lack: both are the host's Kill of the process with the pid
    that was opened, and both return its error and leave the executor as
    Open left it. *)
Theorem ForceStop_kills_opened e (pid h : Z) w :
  os_findProcess pid w = inl h ->
  exists e',
    UniversalExecutor_Open e pid w = Returns (e', None) w /\
    UniversalExecutor_ForceStop e' w
    = (err <- os_Process_Kill (os.newProcess pid h) ;; ret (e', err)) w /\
    UniversalExecutor_Shutdown e' w
    = (err <- os_Process_Kill (os.newProcess pid h) ;; ret (e', err)) w.
Proof.
  intros H. eexists.
  split; [exact (Open_found e pid h w H)|].
  split; reflexivity.
Qed.

(** X13: Start and Wait do not look at the resources and the identity in
    the executor's struct: whatever these are, the call hands the same
    exec.Cmd to the host, returns the same error and host state, and keeps
    the resources and the identity as they were. *)
Theorem Start_Wait_ignore_constraints e
    (resources : structs.Resources) (userid : string) w :
  UniversalExecutor_Start (constrained e resources userid) w
  = match UniversalExecutor_Start e w with
    | Returns (e', err) w' => Returns (constrained e' resources userid, err) w'
    | Panics msg => Panics msg
    end /\
  UniversalExecutor_Wait (constrained e resources userid) w
  = match UniversalExecutor_Wait e w with
    | Returns (e', err) w' => Returns (constrained e' resources userid, err) w'
    | Panics msg => Panics msg
    end.
Proof.
  unfold UniversalExecutor_Start, UniversalExecutor_Wait, bind, constrained; cbn.
  split.
  - destruct (exec_Cmd_Start (cmd_Cmd (UniversalExecutor_cmd e)) w)
      as [[c err] w'|]; reflexivity.
  - destruct (exec_Cmd_Wait (cmd_Cmd (UniversalExecutor_cmd e)) w)
      as [[c err] w'|]; reflexivity.
Qed.

(** X14: through the Executor interface, Limit and then RunAs before Start
    on a UniversalExecutor change nothing: the three calls are the one call
    of Start. *)
Theorem Limit_RunAs_then_Start e
    (resources : structs.Resources) (userid : string) w :
  ('(x1, _) <- Limit (iface e) resources ;;
   '(x2, _) <- RunAs x1 userid ;;
   Start x2) w
  = Start (iface e) w.
Proof. reflexivity. Qed.

End Lifecycle.

(** ** filepath.Base on Unix *)

Section Base.

Import filepath.

Lemma strip_trailing_plain (r : list ascii) :
  existsb IsPathSeparator r = false -> strip_trailing r = r.
Proof.
  destruct r as [|c r]; cbn; [reflexivity|].
  destruct (IsPathSeparator c); [discriminate | reflexivity].
Qed.

Lemma last_element_plain (r : list ascii) :
  existsb IsPathSeparator r = false -> last_element r = r.
Proof.
  induction r as [|c r IH]; cbn; [reflexivity|].
  destruct (IsPathSeparator c); [discriminate|].
  intros H. now rewrite IH.
Qed.

Lemma last_element_no_separator (r : list ascii) :
  existsb IsPathSeparator (last_element r) = false.
Proof.
  induction r as [|c r IH]; cbn; [reflexivity|].
  destruct (IsPathSeparator c) eqn:Hc; cbn; [reflexivity|].
  now rewrite Hc.
Qed.

Lemma existsb_rev {A : Type} (f : A -> bool) (l : list A) :
  existsb f (rev l) = existsb f l.
Proof.
  induction l as [|a l IH]; cbn; [reflexivity|].
  rewrite existsb_app, IH. cbn. rewrite orb_false_r. apply orb_comm.
Qed.

(** filepath.Base(name) == name, the test Command makes, holds of the root
    "/" and of the names that are not empty and contain no separator, and of
    no other name. *)
Lemma Base_fixed_iff (name : string) :
  Base name = name <->
  name = "/" \/ (name <> "" /\ has_separator name = false).
Proof.
  unfold Base, has_separator. split.
  - destruct (String.eqb_spec name "") as [-> | Hne]; [discriminate|].
    set (r := strip_trailing (rev (list_ascii_of_string name))).
    destruct (String.eqb_spec (string_of_list_ascii (rev (last_element r))) "")
      as [_ | _]; intros H.
    + left. now rewrite <- H.
    + right. split; [exact Hne|].
      rewrite <- H, list_ascii_of_string_of_list_ascii, existsb_rev.
      apply last_element_no_separator.
  - intros [-> | [Hne Hsep]]; [reflexivity|].
    destruct (String.eqb_spec name "") as [-> | _]; [now elim Hne|].
    rewrite <- existsb_rev in Hsep.
    rewrite (strip_trailing_plain _ Hsep), (last_element_plain _ Hsep).
    rewrite rev_involutive, string_of_list_ascii_of_string.
    destruct (String.eqb_spec name "") as [-> | _]; [now elim Hne | reflexivity].
Qed.

End Base.

(** ** The properties on the table host *)

Import table_host.

Definition chroot_executor : @Executor world :=
  iface (mk_CapabilityExecutor "chroot" zero_cmd).

Definition probed (names : list string) : world := set_journal w0 names.

Lemma Default_first_available_witness :
  rejected [new "cgroups"] w0 (probed ["cgroups"]) /\
  new "chroot" (probed ["cgroups"]) = Returns chroot_executor (probed ["cgroups"]) /\
  Available chroot_executor (probed ["cgroups"])
    = Returns true (probed ["chroot"; "cgroups"]) /\
  Default (registered ([new "cgroups"] ++ new "chroot" :: [new "rlimit"])) w0
    = Returns chroot_executor (probed ["chroot"; "cgroups"]).
Proof.
  assert (Hrej : rejected [new "cgroups"] w0 (probed ["cgroups"])).
  { eapply rejected_cons; [reflexivity | reflexivity | apply rejected_nil]. }
  split; [exact Hrej|]. split; [reflexivity|]. split; [reflexivity|].
  exact (Default_first_available [new "cgroups"] [new "rlimit"] (new "chroot")
           chroot_executor w0 (probed ["cgroups"]) (probed ["cgroups"])
           (probed ["chroot"; "cgroups"]) Hrej eq_refl eq_refl).
Defined.

Lemma Default_fallback_witness :
  rejected [new "cgroups"; new "jail"] w0 (probed ["jail"; "cgroups"]) /\
  Default [new "cgroups"; new "jail"] w0
    = Returns fallback (probed ["jail"; "cgroups"]) /\
  dynamic_type (@fallback world _) = UniversalExecutor /\
  Available fallback (probed ["jail"; "cgroups"])
    = Returns true (probed ["jail"; "cgroups"]).
Proof.
  assert (Hrej : rejected [new "cgroups"; new "jail"] w0 (probed ["jail"; "cgroups"])).
  { eapply rejected_cons; [reflexivity | reflexivity |].
    eapply rejected_cons; [reflexivity | reflexivity | apply rejected_nil]. }
  split; [exact Hrej|].
  exact (Default_fallback _ _ _ Hrej).
Defined.

Lemma Pid_not_started_witness :
  let cs := [call_Limit structs.zero; call_Open 99; call_RunAs "nobody"] in
  no_Open_succeeds w0 cs = true /\
  exists e,
    perform_all zero_UniversalExecutor cs w0 = Returns e w0 /\
    UniversalExecutor_Pid e w0 = Returns (0%Z, not_started) w0.
Proof.
  cbv zeta. split; [reflexivity|].
  apply (Pid_not_started _ w0). reflexivity.
Defined.



Lemma Open_Pid_roundtrip_witness :
  os_findProcess 4242 w0 = inl 0%Z /\
  exists e',
    UniversalExecutor_Open zero_UniversalExecutor 4242 w0 = Returns (e', None) w0 /\
    UniversalExecutor_Pid e' w0 = Returns (4242%Z, None) w0.
Proof.
  split; [reflexivity|].
  exact (Open_Pid_roundtrip zero_UniversalExecutor 4242 0 w0 eq_refl).
Defined.

Lemma Command_Path_Args_witness :
  Default [] w0 = Returns fallback w0 /\
  exists executor,
    executor_Command [] "ls" ["-l"] w0 = Returns executor w0 /\
    exec.Args (cmd_Cmd (Command executor)) = ["ls"; "-l"] /\
    (filepath_Base "ls" = "ls" ->
       forall lp, exec_LookPath "ls" w0 = inl lp ->
                  exec.Path (cmd_Cmd (Command executor)) = lp) /\
    (filepath_Base "ls" = "ls" ->
       forall err, exec_LookPath "ls" w0 = inr err ->
                   exec.Path (cmd_Cmd (Command executor)) = "ls") /\
    (filepath_Base "ls" <> "ls" ->
       exec.Path (cmd_Cmd (Command executor)) = "ls").
Proof.
  split; [reflexivity|].
  exact (Command_Path_Args [] "ls" ["-l"] fallback w0 w0 eq_refl).
Defined.

Lemma Command_discards_lookup_error_witness :
  let executor :=
    through_Command (through_Command fallback (fun c => assign_Path c "lsx"))
                    (fun c => assign_Args c (["lsx"] ++ ["-l"])) in
  Default [] w0 = Returns fallback w0 /\
  filepath_Base "lsx" = "lsx" /\
  exec_LookPath "lsx" w0 = inr (errorString "executable file not found in $PATH") /\
  executor_Command [] "lsx" ["-l"] w0 = Returns executor w0 /\
  exec.Path (cmd_Cmd (Command executor)) = "lsx".
Proof.
  cbv zeta. split; [reflexivity|]. split; [reflexivity|]. split; [reflexivity|].
  exact (Command_discards_lookup_error [] "lsx" ["-l"] fallback
           (errorString "executable file not found in $PATH") w0 w0
           eq_refl eq_refl eq_refl).
Defined.

(** *** Runs on the table host *)

(** A bare name on the search path is resolved. *)
Example Command_ls :
  match executor_Command [] "ls" ["-l"] w0 with
  | Returns executor w =>
      w = w0 /\
      dynamic_type executor = UniversalExecutor /\
      exec.Path (cmd_Cmd (Command executor)) = "/bin/ls" /\
      exec.Args (cmd_Cmd (Command executor)) = ["ls"; "-l"]
  | Panics _ => False
  end.
Proof. cbn. repeat split. Qed.

(** A name with a directory is not looked up, whatever the search path has. *)
Example Command_dot_ls :
  match executor_Command [new "rlimit"] "./ls" [] w0 with
  | Returns executor w =>
      w = probed ["rlimit"] /\
      dynamic_type executor = CapabilityExecutor /\
      exec.Path (cmd_Cmd (Command executor)) = "./ls" /\
      exec.Args (cmd_Cmd (Command executor)) = ["./ls"]
  | Panics _ => False
  end.
Proof. cbn. repeat split. Qed.

(** ForceStop after a successful Open kills the process; before it, the call
    panics. *)
Example ForceStop_after_Open :
  (e <- Default [] ;;
   '(e, _) <- Open e 17 ;;
   '(_, err) <- ForceStop e ;;
   ret err) w0 = Returns None (set_procs w0 [4242%Z]).
Proof. reflexivity. Qed.

Example ForceStop_before_Open :
  (e <- Default [] ;;
   '(_, err) <- ForceStop e ;;
   ret err) w0 = Panics nil_dereference.
Proof. reflexivity. Qed.

(** OpenPid at a pid the host does not find returns no executor. *)
Example OpenPid_stale :
  OpenPid [] 99 w0
  = Returns (None, Some (errorString "Failed to reopen pid 99: no such process")) w0.
Proof. reflexivity. Qed.

(** *** The further properties on the table host *)

Definition rlimit_executor : @Executor world :=
  iface (mk_CapabilityExecutor "rlimit" zero_cmd).

Lemma rejected_cgroups : rejected [new "cgroups"] w0 (probed ["cgroups"]).
Proof.
  eapply rejected_cons; [reflexivity | reflexivity | apply rejected_nil].
Defined.

Lemma Default_returns_witness :
  Forall (fun factory : @ExecutorFactory world =>
            forall w, exists executor w1,
              factory w = Returns executor w1 /\
              exists available w2,
                Available executor w1 = Returns available w2)
         [new "cgroups"; new "chroot"] /\
  exists executor w',
    Default [new "cgroups"; new "chroot"] w0 = Returns executor w'.
Proof.
  assert (H : Forall (fun factory : @ExecutorFactory world =>
            forall w, exists executor w1,
              factory w = Returns executor w1 /\
              exists available w2,
                Available executor w1 = Returns available w2)
         [new "cgroups"; new "chroot"]).
  { repeat constructor; intros w; do 2 eexists;
      (split; [reflexivity|]); do 2 eexists; reflexivity. }
  split; [exact H|].
  exact (Default_returns [new "cgroups"; new "chroot"] H w0).
Defined.

Lemma Default_selected_available_witness :
  Default [new "cgroups"; new "chroot"] w0
    = Returns chroot_executor (probed ["chroot"; "cgroups"]) /\
  ((chroot_executor = fallback /\
    rejected [new "cgroups"; new "chroot"] w0 (probed ["chroot"; "cgroups"])) \/
   (exists earlier factory later w1 w2,
       [new "cgroups"; new "chroot"] = (earlier ++ factory :: later)%list /\
       rejected earlier w0 w1 /\
       factory w1 = Returns chroot_executor w2 /\
       Available chroot_executor w2 = Returns true (probed ["chroot"; "cgroups"]))).
Proof.
  split; [reflexivity|].
  exact (Default_selected_available [new "cgroups"; new "chroot"] w0
           chroot_executor (probed ["chroot"; "cgroups"]) eq_refl).
Defined.

Lemma Register_keeps_selection_witness :
  rejected [new "cgroups"] w0 (probed ["cgroups"]) /\
  new "chroot" (probed ["cgroups"]) = Returns chroot_executor (probed ["cgroups"]) /\
  Available chroot_executor (probed ["cgroups"])
    = Returns true (probed ["chroot"; "cgroups"]) /\
  Default (Register ([new "cgroups"] ++ new "chroot" :: []) (new "rlimit")) w0
    = Returns chroot_executor (probed ["chroot"; "cgroups"]).
Proof.
  split; [exact rejected_cgroups|]. split; [reflexivity|]. split; [reflexivity|].
  exact (Register_keeps_selection [new "cgroups"] [] (new "chroot") (new "rlimit")
           chroot_executor w0 (probed ["cgroups"]) (probed ["cgroups"])
           (probed ["chroot"; "cgroups"]) rejected_cgroups eq_refl eq_refl).
Defined.

Lemma Register_probed_last_witness :
  rejected [new "cgroups"] w0 (probed ["cgroups"]) /\
  Default (Register [new "cgroups"] (new "rlimit")) w0
  = (executor <- new "rlimit" ;;
     available <- Available executor ;;
     if available then ret executor else ret fallback) (probed ["cgroups"]).
Proof.
  split; [exact rejected_cgroups|].
  exact (Register_probed_last [new "cgroups"] (new "rlimit") w0
           (probed ["cgroups"]) rejected_cgroups).
Defined.

Lemma OpenPid_result_exclusive_witness :
  OpenPid [] 99 w0
    = Returns (None, Some (errorString "Failed to reopen pid 99: no such process")) w0 /\
  ((@None (@Executor world) = None /\
    Some (errorString "Failed to reopen pid 99: no such process") <> None) \/
   (@None (@Executor world) <> None /\
    Some (errorString "Failed to reopen pid 99: no such process") = None)).
Proof.
  split; [reflexivity|].
  exact (OpenPid_result_exclusive [] 99 w0 None
           (Some (errorString "Failed to reopen pid 99: no such process")) w0
           eq_refl).
Defined.

Lemma OpenPid_fallback_roundtrip_witness :
  rejected [new "cgroups"] w0 (probed ["cgroups"]) /\
  os_findProcess 4242 (probed ["cgroups"]) = inl 0%Z /\
  exists executor,
    OpenPid [new "cgroups"] 4242 w0
      = Returns (Some executor, None) (probed ["cgroups"]) /\
    dynamic_type executor = UniversalExecutor /\
    Pid executor (probed ["cgroups"]) = Returns (4242%Z, None) (probed ["cgroups"]).
Proof.
  split; [exact rejected_cgroups|]. split; [reflexivity|].
  exact (OpenPid_fallback_roundtrip [new "cgroups"] 4242 0 w0
           (probed ["cgroups"]) rejected_cgroups eq_refl).
Defined.

Lemma OpenPid_fallback_lookup_error_witness :
  rejected [new "cgroups"] w0 (probed ["cgroups"]) /\
  os_findProcess 99 (probed ["cgroups"]) = inr (errorString "no such process") /\
  OpenPid [new "cgroups"] 99 w0
    = Returns (None, Some (errorString "Failed to reopen pid 99: no such process"))
              (probed ["cgroups"]).
Proof.
  split; [exact rejected_cgroups|]. split; [reflexivity|].
  exact (OpenPid_fallback_lookup_error [new "cgroups"] 99
           (errorString "no such process") w0 (probed ["cgroups"])
           rejected_cgroups eq_refl).
Defined.

Lemma Command_frame_witness :
  Default [new "rlimit"] w0 = Returns rlimit_executor (probed ["rlimit"]) /\
  exists executor,
    executor_Command [new "rlimit"] "java" ["-version"] w0
      = Returns executor (probed ["rlimit"]) /\
    dynamic_type executor = dynamic_type rlimit_executor /\
    exec.Env (cmd_Cmd (Command executor))
      = exec.Env (cmd_Cmd (Command rlimit_executor)) /\
    exec.Dir (cmd_Cmd (Command executor))
      = exec.Dir (cmd_Cmd (Command rlimit_executor)) /\
    exec.Process (cmd_Cmd (Command executor))
      = exec.Process (cmd_Cmd (Command rlimit_executor)) /\
    cmd_Resources (Command executor) = cmd_Resources (Command rlimit_executor) /\
    cmd_RunAs (Command executor) = cmd_RunAs (Command rlimit_executor).
Proof.
  split; [reflexivity|].
  exact (Command_frame [new "rlimit"] "java" ["-version"] rlimit_executor w0
           (probed ["rlimit"]) eq_refl).
Defined.

Lemma Command_not_started_witness :
  rejected [new "cgroups"] w0 (probed ["cgroups"]) /\
  exists executor,
    executor_Command [new "cgroups"] "java" ["-version"] w0
      = Returns executor (probed ["cgroups"]) /\
    dynamic_type executor = UniversalExecutor /\
    Pid executor (probed ["cgroups"]) = Returns (0%Z, not_started) (probed ["cgroups"]).
Proof.
  split; [exact rejected_cgroups|].
  exact (Command_not_started [new "cgroups"] "java" ["-version"] w0
           (probed ["cgroups"]) rejected_cgroups).
Defined.

Lemma Open_last_wins_witness :
  os_findProcess 4242 w0 = inl 0%Z /\
  os_findProcess 17 w0 = inl 0%Z /\
  exists e1 e2,
    UniversalExecutor_Open zero_UniversalExecutor 4242 w0 = Returns (e1, None) w0 /\
    UniversalExecutor_Open e1 17 w0 = Returns (e2, None) w0 /\
    UniversalExecutor_Pid e2 w0 = Returns (17%Z, None) w0.
Proof.
  split; [reflexivity|]. split; [reflexivity|].
  exact (Open_last_wins zero_UniversalExecutor 4242 0 17 0 w0 eq_refl eq_refl).
Defined.

Lemma Open_failure_keeps_Process_witness :
  os_findProcess 4242 w0 = inl 0%Z /\
  os_findProcess 99 w0 = inr (errorString "no such process") /\
  exists e1,
    UniversalExecutor_Open zero_UniversalExecutor 4242 w0 = Returns (e1, None) w0 /\
    UniversalExecutor_Open e1 99 w0
      = Returns (e1, reopen_failure 99 (errorString "no such process")) w0 /\
    UniversalExecutor_Pid e1 w0 = Returns (4242%Z, None) w0.
Proof.
  split; [reflexivity|]. split; [reflexivity|].
  exact (Open_failure_keeps_Process zero_UniversalExecutor 4242 0 99
           (errorString "no such process") w0 eq_refl eq_refl).
Defined.

Lemma ForceStop_kills_opened_witness :
  os_findProcess 17 w0 = inl 0%Z /\
  exists e',
    UniversalExecutor_Open zero_UniversalExecutor 17 w0 = Returns (e', None) w0 /\
    UniversalExecutor_ForceStop e' w0
    = (err <- os_Process_Kill (os.newProcess 17 0) ;; ret (e', err)) w0 /\
    UniversalExecutor_Shutdown e' w0
    = (err <- os_Process_Kill (os.newProcess 17 0) ;; ret (e', err)) w0.
Proof.
  split; [reflexivity|].
  exact (ForceStop_kills_opened zero_UniversalExecutor 17 0 w0 eq_refl).
Defined.

Lemma Default_propagates_panic_witness :
  rejected [new "cgroups"] w0 (probed ["cgroups"]) /\
  ((fun _ : world => @Panics world (@Executor world) "no platform")
     (probed ["cgroups"]) = Panics "no platform" \/
   (exists executor w2,
       (fun _ : world => @Panics world (@Executor world) "no platform")
         (probed ["cgroups"]) = Returns executor w2 /\
       Available executor w2 = Panics "no platform")) /\
  Default ([new "cgroups"] ++ (fun _ => Panics "no platform") :: [new "chroot"]) w0
    = Panics "no platform".
Proof.
  split; [exact rejected_cgroups|].
  split; [left; reflexivity|].
  exact (Default_propagates_panic [new "cgroups"] [new "chroot"]
           (fun _ => Panics "no platform") "no platform" w0 (probed ["cgroups"])
           rejected_cgroups (or_introl eq_refl)).
Defined.
